(** * simple2d, [src/controllers.c]: detection of controllers and joysticks

    [S2D_DetectControllers] asks the input subsystem (SDL) how many joysticks
    are attached, and for every index tries the game-controller interface and
    falls back on the raw joystick interface, reporting what it finds.

    The function is embedded in a state monad over a [world] that holds what
    the C code reads and writes: the subsystem's device table, its last-error
    string and its open handles, the global message buffer [S2D_msg] with its
    size, and the history of what was written (log sink and standard output)
    and of the calls made into the subsystem. *)

From Stdlib Require Import ZArith List String Ascii Bool Lia DecimalString.
Import ListNotations.
Local Open Scope string_scope.
Local Open Scope Z_scope.

(** ** Text *)

(** The characters [%i] and [%d] of a C format print an [int] in decimal. *)
Definition dec (z : Z) : string := NilZero.string_of_int (Z.to_int z).

Definition LF : ascii := ascii_of_nat 10.

(** A C string literal as the source writes it: the escape [\n] stands for a
    line feed. *)
Fixpoint c_literal (src : string) : string :=
  match src with
  | String "\" (String "n" rest) => String LF (c_literal rest)
  | String c rest => String c (c_literal rest)
  | EmptyString => EmptyString
  end.

Inductive fmt_arg : Type :=
| arg_int (z : Z)
| arg_str (s : string).

(** The conversions the file uses: [%i], [%d] and [%s].  A conversion whose
    argument is missing or of the other kind prints nothing (in C it is
    undefined; no call of this file is of that kind, see the [text_] lemmas
    for what each call prints). *)
Fixpoint format (fmt : string) (args : list fmt_arg) : string :=
  match fmt with
  | String "%" (String c rest) =>
      match args with
      | arg_int z :: args' =>
          if (Ascii.eqb c "i" || Ascii.eqb c "d")%bool
          then dec z ++ format rest args'
          else format rest args'
      | arg_str s :: args' =>
          if Ascii.eqb c "s" then s ++ format rest args' else format rest args'
      | [] => format rest []
      end
  | String c rest => String c (format rest args)
  | EmptyString => EmptyString
  end.

(** [needle] occurs in [hay]. *)
Definition contains (needle hay : string) : Prop :=
  exists before after, hay = before ++ needle ++ after.

Fixpoint containsb (needle hay : string) : bool :=
  (String.prefix needle hay ||
   match hay with
   | EmptyString => false
   | String _ rest => containsb needle rest
   end)%bool.

(** ** The input subsystem *)

(** SDL is a library outside the repository.  Its state is modelled by what
    the function can observe of it: a table of attached devices, fixed while
    the function runs, the handles that are open, and the last error string. *)

(** One row of the subsystem's device table.  A device has a name (the
    queries never return [NULL]); whether it opens is a property of the row,
    for whichever of the two open calls the function makes on it. *)
Record device : Type := mkDevice {
  name : string;                  (* SDL_GameControllerName / SDL_JoystickName *)
  is_game_controller : bool;      (* SDL_IsGameController *)
  open_failure : option string;   (* None: the device opens;
                                     Some e: opening fails and the subsystem
                                     sets its error string to e *)
  num_axes : Z;                   (* SDL_JoystickNumAxes *)
  num_buttons : Z;                (* SDL_JoystickNumButtons *)
  num_balls : Z                   (* SDL_JoystickNumBalls *)
}.

(** Handles: what [SDL_GameControllerOpen] and [SDL_JoystickOpen] return when
    they do not return [NULL]. *)
Record SDL_GameController : Type := mkController {
  controller_index : Z;
  controller_device : device
}.

Record SDL_Joystick : Type := mkJoystick {
  joystick_index : Z;
  joystick_device : device
}.

Inductive handle : Type :=
| controller_handle (c : SDL_GameController)
| joystick_handle (j : SDL_Joystick).

(** The calls of the subsystem's API, as a history records them. *)
Inductive sdl_call : Type :=
| NumJoysticks
| IsGameController (i : Z)
| GameControllerOpen (i : Z)
| GameControllerName (c : SDL_GameController)
| GameControllerClose (c : SDL_GameController)
| JoystickOpen (i : Z)
| JoystickName (j : SDL_Joystick)
| JoystickNumAxes (j : SDL_Joystick)
| JoystickNumButtons (j : SDL_Joystick)
| JoystickNumBalls (j : SDL_Joystick)
| JoystickClose (j : SDL_Joystick)
| GetError.

(** ** What the program writes *)

(** Modelled from the spec: the severity levels of the logging sink, info
    and error; the constants [S2D_INFO] and [S2D_ERROR] are declared in
    [simple2d.h], outside this file. *)
Inductive severity : Type :=
| S2D_INFO
| S2D_ERROR.

Inductive written : Type :=
| Log (msg : string) (type : severity)   (* through S2D_Log *)
| Stdout (text : string).                (* through printf *)

(** ** The state *)

(** A text of [String.length text] characters and its terminating zero are
    held by an array of [size] characters. *)
Definition fits (size : nat) (text : string) : bool :=
  (String.length text <? size)%nat.

(** Modelled from the spec: [S2D_msg] is the global (static) message buffer,
    reused across the log calls.  It is an array declared in [simple2d.h],
    outside this file: its size is a parameter of the state.  The other
    fields are the state of the subsystem and the two histories. *)
Record world : Type := mkWorld {
  joysticks : list device;    (* the device table *)
  sdl_error : string;         (* what SDL_GetError returns *)
  open_handles : list handle; (* opened and not closed, oldest first *)
  S2D_msg_size : nat;         (* the number of characters of the array S2D_msg *)
  S2D_msg : string;           (* the text that starts at S2D_msg *)
  overrun : bool;             (* a write went past the end of S2D_msg *)
  output : list written;      (* everything written, oldest first *)
  calls : list sdl_call       (* every call into the subsystem, oldest first *)
}.

Definition set_error (e : string) (w : world) : world :=
  mkWorld (joysticks w) e (open_handles w) (S2D_msg_size w) (S2D_msg w)
          (overrun w) (output w) (calls w).

Definition add_handle (h : handle) (w : world) : world :=
  mkWorld (joysticks w) (sdl_error w) (open_handles w ++ [h])
          (S2D_msg_size w) (S2D_msg w) (overrun w) (output w) (calls w).

Definition set_handles (hs : list handle) (w : world) : world :=
  mkWorld (joysticks w) (sdl_error w) hs (S2D_msg_size w) (S2D_msg w)
          (overrun w) (output w) (calls w).

(** Writing a text at [S2D_msg] without a bound, as [sprintf] does.  The text
    is written whole; when it does not fit the array the write goes past its
    end, which C leaves undefined, and [overrun] records it. *)
Definition set_msg (m : string) (w : world) : world :=
  mkWorld (joysticks w) (sdl_error w) (open_handles w) (S2D_msg_size w) m
          (overrun w || negb (fits (S2D_msg_size w) m))
          (output w) (calls w).

Definition write (x : written) (w : world) : world :=
  mkWorld (joysticks w) (sdl_error w) (open_handles w) (S2D_msg_size w)
          (S2D_msg w) (overrun w) (output w ++ [x]) (calls w).

Definition record_call (c : sdl_call) (w : world) : world :=
  mkWorld (joysticks w) (sdl_error w) (open_handles w) (S2D_msg_size w)
          (S2D_msg w) (overrun w) (output w) (calls w ++ [c]).

(** ** The monad: state, and [None] when the loop's fuel runs out *)

Definition M (A : Type) : Type := world -> option (A * world).

Definition ret {A : Type} (a : A) : M A := fun w => Some (a, w).

Definition bind {A B : Type} (m : M A) (k : A -> M B) : M B :=
  fun w => match m w with
           | Some (a, w') => k a w'
           | None => None
           end.

Definition out_of_fuel {A : Type} : M A := fun _ => None.

Definition modify (f : world -> world) : M unit := fun w => Some (tt, f w).

Definition gets {A : Type} (f : world -> A) : M A := fun w => Some (f w, w).

Declare Scope s2d_scope.
Delimit Scope s2d_scope with s2d.
Notation "x <- m ;; k" := (bind m (fun x => k))
  (at level 61, m at next level, right associativity) : s2d_scope.
Notation "m ;; k" := (bind m (fun _ => k))
  (at level 61, right associativity) : s2d_scope.
Local Open Scope s2d_scope.

(** The state a computation ends in. *)
Definition exec {A : Type} (m : M A) (w : world) : option world :=
  match m w with
  | Some (_, w') => Some w'
  | None => None
  end.

(** ** The subsystem's API over the state *)

Definition device_at (i : Z) (w : world) : option device :=
  if i <? 0 then None else nth_error (joysticks w) (Z.to_nat i).

Definition no_such_device : string := "Joystick index out of range".

Definition SDL_NumJoysticks : M Z :=
  modify (record_call NumJoysticks) ;;
  gets (fun w => Z.of_nat (List.length (joysticks w))).

Definition SDL_IsGameController (i : Z) : M bool :=
  modify (record_call (IsGameController i)) ;;
  gets (fun w => match device_at i w with
                 | Some d => is_game_controller d
                 | None => false
                 end).

Definition SDL_GetError : M string :=
  modify (record_call GetError) ;;
  gets sdl_error.

(** Opening returns a handle, or [NULL] with the error string set. *)
Definition SDL_GameControllerOpen (i : Z) : M (option SDL_GameController) :=
  modify (record_call (GameControllerOpen i)) ;;
  d <- gets (device_at i) ;;
  match d with
  | Some d =>
      match open_failure d with
      | None =>
          let c := mkController i d in
          modify (add_handle (controller_handle c)) ;; ret (Some c)
      | Some e => modify (set_error e) ;; ret None
      end
  | None => modify (set_error no_such_device) ;; ret None
  end.

Definition SDL_JoystickOpen (i : Z) : M (option SDL_Joystick) :=
  modify (record_call (JoystickOpen i)) ;;
  d <- gets (device_at i) ;;
  match d with
  | Some d =>
      match open_failure d with
      | None =>
          let j := mkJoystick i d in
          modify (add_handle (joystick_handle j)) ;; ret (Some j)
      | Some e => modify (set_error e) ;; ret None
      end
  | None => modify (set_error no_such_device) ;; ret None
  end.

Definition SDL_GameControllerName (c : SDL_GameController) : M string :=
  modify (record_call (GameControllerName c)) ;;
  ret (name (controller_device c)).

Definition SDL_JoystickName (j : SDL_Joystick) : M string :=
  modify (record_call (JoystickName j)) ;;
  ret (name (joystick_device j)).

Definition SDL_JoystickNumAxes (j : SDL_Joystick) : M Z :=
  modify (record_call (JoystickNumAxes j)) ;;
  ret (num_axes (joystick_device j)).

Definition SDL_JoystickNumButtons (j : SDL_Joystick) : M Z :=
  modify (record_call (JoystickNumButtons j)) ;;
  ret (num_buttons (joystick_device j)).

Definition SDL_JoystickNumBalls (j : SDL_Joystick) : M Z :=
  modify (record_call (JoystickNumBalls j)) ;;
  ret (num_balls (joystick_device j)).

(** Closing removes the handle from the open ones. *)
Definition handle_is (h h' : handle) : bool :=
  match h, h' with
  | controller_handle c, controller_handle c' =>
      controller_index c =? controller_index c'
  | joystick_handle j, joystick_handle j' =>
      joystick_index j =? joystick_index j'
  | _, _ => false
  end.

Definition close_handle (h : handle) (w : world) : world :=
  set_handles (filter (fun h' => negb (handle_is h h')) (open_handles w)) w.

Definition SDL_GameControllerClose (c : SDL_GameController) : M unit :=
  modify (record_call (GameControllerClose c)) ;;
  modify (close_handle (controller_handle c)).

Definition SDL_JoystickClose (j : SDL_Joystick) : M unit :=
  modify (record_call (JoystickClose j)) ;;
  modify (close_handle (joystick_handle j)).

(** ** The C library and the logging sink *)

(** [sprintf(S2D_msg, fmt, ...)] writes the formatted text at the global
    buffer, whatever its length: a text that does not fit the array overruns
    it.  From then on the C program has no defined behaviour; the state goes
    on with the whole text at [S2D_msg] and with [overrun] set, and a run
    stands for the C program as long as [overrun] is false. *)
Definition sprintf_S2D_msg (fmt : string) (args : list fmt_arg) : M unit :=
  modify (set_msg (format (c_literal fmt) args)).

(** [printf(fmt, ...)] writes to standard output. *)
Definition printf (fmt : string) (args : list fmt_arg) : M unit :=
  modify (write (Stdout (format (c_literal fmt) args))).

(** Modelled from the spec: [S2D_Log], which is defined outside this file, is
    the logging sink taking a message and a severity level (info or error);
    a call hands it the message with that level. *)
Definition S2D_Log (msg : string) (type : severity) : M unit :=
  modify (write (Log msg type)).

(** ** [S2D_DetectControllers] *)

(** Lines 11 to 14. *)
Definition report_count : M unit :=
  n <- SDL_NumJoysticks ;;
  if n >? 0 then
    n' <- SDL_NumJoysticks ;;
    sprintf_S2D_msg "Controllers detected: %i" [arg_int n'] ;;
    msg <- gets S2D_msg ;;
    S2D_Log msg S2D_INFO
  else ret tt.

(** Lines 23 to 54, the body of the loop at index [i].  The variables
    [controller] and [joy] of lines 17 and 18 are assigned before every use,
    so they are bound where they are assigned.  The four queries of the
    [printf] call are sequenced left to right. *)
Definition detect_device (i : Z) : M unit :=
  gc <- SDL_IsGameController i ;;
  if gc then
    controller <- SDL_GameControllerOpen i ;;
    match controller with
    | Some controller =>
        nm <- SDL_GameControllerName controller ;;
        sprintf_S2D_msg "Controller #%i: %s\n" [arg_int i; arg_str nm] ;;
        msg <- gets S2D_msg ;;
        S2D_Log msg S2D_INFO
    | None =>
        err <- SDL_GetError ;;
        sprintf_S2D_msg "Could not open controller #%i: %s\n"
                        [arg_int i; arg_str err] ;;
        msg <- gets S2D_msg ;;
        S2D_Log msg S2D_ERROR
    end
  else
    sprintf_S2D_msg "Generic controller #%i" [arg_int i] ;;
    msg <- gets S2D_msg ;;
    S2D_Log msg S2D_INFO ;;
    joy <- SDL_JoystickOpen i ;;
    match joy with
    | Some joy =>
        nm <- SDL_JoystickName joy ;;
        axes <- SDL_JoystickNumAxes joy ;;
        buttons <- SDL_JoystickNumButtons joy ;;
        balls <- SDL_JoystickNumBalls joy ;;
        printf "      Name: %s\n      Axes: %d\n      Buttons: %d\n      Balls: %d\n"
               [arg_str nm; arg_int axes; arg_int buttons; arg_int balls]
    | None =>
        sprintf_S2D_msg "Could not open generic controller #%i" [arg_int i] ;;
        msg <- gets S2D_msg ;;
        S2D_Log msg S2D_ERROR
    end.

(** Lines 21 to 55: [for (int i = 0; i < SDL_NumJoysticks(); ++i)].  The
    bound is asked again before every iteration; one unit of fuel pays for
    one evaluation of the loop condition.  [i] never exceeds the bound, an
    [int], so [++i] does not overflow. *)
Fixpoint enumerate_joysticks (fuel : nat) (i : Z) : M unit :=
  match fuel with
  | O => out_of_fuel
  | S fuel' =>
      n <- SDL_NumJoysticks ;;
      if i <? n then
        detect_device i ;;
        enumerate_joysticks fuel' (i + 1)
      else ret tt
  end.

Definition S2D_DetectControllers (fuel : nat) : M unit :=
  report_count ;;
  enumerate_joysticks fuel 0.

(** ** What a computation adds to the histories *)

Definition since {X : Type} (before after : list X) : list X :=
  skipn (List.length before) after.

Definition written_by {A : Type} (m : M A) (w : world) : list written :=
  match exec m w with
  | Some w' => since (output w) (output w')
  | None => []
  end.

Definition calls_by {A : Type} (m : M A) (w : world) : list sdl_call :=
  match exec m w with
  | Some w' => since (calls w) (calls w')
  | None => []
  end.

Definition opened_by {A : Type} (m : M A) (w : world) : list handle :=
  match exec m w with
  | Some w' => since (open_handles w) (open_handles w')
  | None => []
  end.

(** The number of attached devices and their indexes, ascending. *)
Definition device_count (w : world) : nat := List.length (joysticks w).

Definition indexes (w : world) : list Z :=
  map Z.of_nat (seq 0 (device_count w)).

(** What the body of the loop writes for index [i]. *)
Definition device_output (w : world) (i : Z) : list written :=
  written_by (detect_device i) w.

Definition info_lines (l : list written) : list string :=
  flat_map (fun x => match x with
                     | Log msg S2D_INFO => [msg]
                     | _ => []
                     end) l.

Definition error_lines (l : list written) : list string :=
  flat_map (fun x => match x with
                     | Log msg S2D_ERROR => [msg]
                     | _ => []
                     end) l.



Definition is_close (c : sdl_call) : bool :=
  match c with
  | GameControllerClose _ | JoystickClose _ => true
  | _ => false
  end.

Definition is_open_of (i : Z) (c : sdl_call) : bool :=
  match c with
  | GameControllerOpen k | JoystickOpen k => k =? i
  | _ => false
  end.


Definition nl : string := String LF "".

(** ** Further observations of a run *)

(** The messages handed to the logging sink, in order. *)
Definition log_messages (l : list written) : list string :=
  flat_map (fun x => match x with
                     | Log msg _ => [msg]
                     | Stdout _ => []
                     end) l.

(** The messages the function formats into [S2D_msg]: each one is handed to
    the logging sink right after it is formatted. *)
Definition messages (w : world) : list string :=
  log_messages (written_by (S2D_DetectControllers (S (device_count w))) w).

(** Every message the function formats fits the array [S2D_msg], with its
    terminating zero. *)
Definition buffer_suffices (w : world) : bool :=
  forallb (fits (S2D_msg_size w)) (messages w).

(** The error strings of the rows that do not open, in the order of the
    table. *)
Definition failures (devices : list device) : list string :=
  flat_map (fun d => match open_failure d with
                     | Some e => [e]
                     | None => []
                     end) devices.










(** ** Closed forms

    What each piece of the function does, written as a function of the device
    table; the lemmas below prove that the code does exactly this. *)

(** The details report of lines 43 to 47, for a joystick of row [d]. *)
Definition details (d : device) : string :=
  format (c_literal
            "      Name: %s\n      Axes: %d\n      Buttons: %d\n      Balls: %d\n")
         [arg_str (name d); arg_int (num_axes d); arg_int (num_buttons d);
          arg_int (num_balls d)].

(** What the body of the loop writes, calls and opens, by the row of the
    device table at its index ([None]: no such row). *)
Definition lines_for (i : Z) (row : option device) : list written :=
  match row with
  | Some d =>
      if is_game_controller d then
        match open_failure d with
        | None => [Log ("Controller #" ++ dec i ++ ": " ++ name d ++ nl) S2D_INFO]
        | Some e =>
            [Log ("Could not open controller #" ++ dec i ++ ": " ++ e ++ nl)
                 S2D_ERROR]
        end
      else
        Log ("Generic controller #" ++ dec i) S2D_INFO ::
        match open_failure d with
        | None => [Stdout (details d)]
        | Some _ =>
            [Log ("Could not open generic controller #" ++ dec i) S2D_ERROR]
        end
  | None =>
      [Log ("Generic controller #" ++ dec i) S2D_INFO;
       Log ("Could not open generic controller #" ++ dec i) S2D_ERROR]
  end.

Definition calls_for (i : Z) (row : option device) : list sdl_call :=
  IsGameController i ::
  match row with
  | Some d =>
      if is_game_controller d then
        GameControllerOpen i ::
        match open_failure d with
        | None => [GameControllerName (mkController i d)]
        | Some _ => [GetError]
        end
      else
        JoystickOpen i ::
        match open_failure d with
        | None =>
            let j := mkJoystick i d in
            [JoystickName j; JoystickNumAxes j; JoystickNumButtons j;
             JoystickNumBalls j]
        | Some _ => []
        end
  | None => [JoystickOpen i]
  end.

Definition handles_for (i : Z) (row : option device) : list handle :=
  match row with
  | Some d =>
      match open_failure d with
      | None =>
          if is_game_controller d
          then [controller_handle (mkController i d)]
          else [joystick_handle (mkJoystick i d)]
      | Some _ => []
      end
  | None => []
  end.

Definition error_for (old : string) (row : option device) : string :=
  match row with
  | Some d =>
      match open_failure d with
      | None => old
      | Some e => e
      end
  | None => no_such_device
  end.

Definition summary_for (w : world) : list written :=
  if (0 <? device_count w)%nat
  then [Log ("Controllers detected: " ++ dec (Z.of_nat (device_count w))) S2D_INFO]
  else [].

(** The indexes [i], [i+1], ..., [i+n-1]. *)
Fixpoint indexes_from (i : Z) (n : nat) : list Z :=
  match n with
  | O => []
  | S n' => i :: indexes_from (i + 1) n'
  end.

(** ** Example device tables *)

(** A controller and a joystick that open, and one of each that does not. *)
Definition pad : device := mkDevice "Pad" true None 6 15 0.

Definition stick : device := mkDevice "Stick" false None 2 4 1.

Definition broken_pad : device :=
  mkDevice "Wheel" true (Some "Couldn't find mapping for device (2)") 0 0 0.

Definition broken_stick : device :=
  mkDevice "Pedals" false (Some "Unable to open /dev/input/js3") 0 0 0.

(** A text of [n] characters, and devices with a name or an error string of
    2000 characters. *)
Fixpoint replicate (n : nat) (c : ascii) : string :=
  match n with
  | O => EmptyString
  | S n' => String c (replicate n' c)
  end.

Definition long_text : string := replicate 2000 "A".

Definition long_pad : device := mkDevice long_text true None 6 15 0.


(** A state with the given table, a buffer of 1024 characters and no
    history. *)
Definition fresh (devices : list device) : world :=
  mkWorld devices "" [] 1024 "" false [] [].

Definition four_devices : world := fresh [pad; stick; broken_pad; broken_stick].


(** * Proofs *)

(** ** Closed forms of the texts *)

Lemma append_empty (s : string) : s ++ "" = s.
Proof. induction s as [|c s IH]; simpl; [reflexivity | now rewrite IH]. Qed.

Lemma text_count (n : Z) :
  format (c_literal "Controllers detected: %i") [arg_int n]
  = "Controllers detected: " ++ dec n.
Proof. simpl. now rewrite append_empty. Qed.

Lemma text_controller (i : Z) (nm : string) :
  format (c_literal "Controller #%i: %s\n") [arg_int i; arg_str nm]
  = "Controller #" ++ dec i ++ ": " ++ nm ++ nl.
Proof. reflexivity. Qed.

Lemma text_controller_failed (i : Z) (err : string) :
  format (c_literal "Could not open controller #%i: %s\n")
         [arg_int i; arg_str err]
  = "Could not open controller #" ++ dec i ++ ": " ++ err ++ nl.
Proof. reflexivity. Qed.

Lemma text_generic (i : Z) :
  format (c_literal "Generic controller #%i") [arg_int i]
  = "Generic controller #" ++ dec i.
Proof. simpl. now rewrite append_empty. Qed.

Lemma text_details (nm : string) (axes buttons balls : Z) :
  format (c_literal
            "      Name: %s\n      Axes: %d\n      Buttons: %d\n      Balls: %d\n")
         [arg_str nm; arg_int axes; arg_int buttons; arg_int balls]
  = "      Name: " ++ nm ++ nl ++ "      Axes: " ++ dec axes ++ nl
    ++ "      Buttons: " ++ dec buttons ++ nl
    ++ "      Balls: " ++ dec balls ++ nl.
Proof. reflexivity. Qed.

Lemma text_generic_failed (i : Z) :
  format (c_literal "Could not open generic controller #%i") [arg_int i]
  = "Could not open generic controller #" ++ dec i.
Proof. simpl. now rewrite append_empty. Qed.

(** ** Occurrences *)

Lemma append_assoc (a b c : string) : (a ++ b) ++ c = a ++ (b ++ c).
Proof. induction a as [|x a IH]; simpl; [reflexivity | now rewrite IH]. Qed.

Lemma contains_here (needle after : string) : contains needle (needle ++ after).
Proof. exists "", after. reflexivity. Qed.

Lemma contains_self (needle : string) : contains needle needle.
Proof. exists "", "". cbn. now rewrite append_empty. Qed.

Lemma contains_after (needle before hay : string) :
  contains needle hay -> contains needle (before ++ hay).
Proof.
  intros (b & a & ->). exists (before ++ b), a.
  now rewrite append_assoc.
Qed.

Ltac occurs :=
  repeat first [apply contains_here | apply contains_self
               | apply contains_after].

Lemma prefix_iff (p s : string) :
  String.prefix p s = true <-> exists after, s = p ++ after.
Proof.
  revert s. induction p as [|c p IH]; intros s.
  - split; [intros _; now exists s | intros _; now destruct s].
  - destruct s as [|c' s]; simpl.
    + split; [discriminate | intros (a & Ha); discriminate].
    + destruct (Ascii.ascii_dec c c') as [->|Hne].
      * rewrite IH. split; intros (a & Ha); exists a.
        -- now rewrite Ha.
        -- now injection Ha.
      * split; [discriminate | intros (a & Ha)].
        injection Ha as Hc _. congruence.
Qed.

Lemma containsb_iff (needle hay : string) :
  containsb needle hay = true <-> contains needle hay.
Proof.
  induction hay as [|c hay IH].
  - cbn [containsb]. rewrite orb_false_r, prefix_iff. split.
    + intros (a & Ha). exists "", a. exact Ha.
    + intros ([|x b] & a & Ha); [now exists a | discriminate].
  - cbn [containsb]. rewrite orb_true_iff, IH, prefix_iff. split.
    + intros [(a & Ha) | (b & a & Ha)].
      * exists "", a. exact Ha.
      * exists (String c b), a. simpl. now rewrite Ha.
    + intros ([|x b] & a & Ha).
      * left. now exists a.
      * right. injection Ha as _ Ha. now exists b, a.
Qed.

(** ** Closed forms of the computations *)

Lemma since_app {X : Type} (l r : list X) : since l (l ++ r) = r.
Proof.
  unfold since. induction l as [|x l IH]; simpl; [reflexivity | exact IH].
Qed.

Lemma detect_device_run (i : Z) (w : world) :
  exists w',
    detect_device i w = Some (tt, w')
    /\ joysticks w' = joysticks w
    /\ output w' = (output w ++ lines_for i (device_at i w))%list
    /\ calls w' = (calls w ++ calls_for i (device_at i w))%list
    /\ open_handles w' = (open_handles w ++ handles_for i (device_at i w))%list
    /\ sdl_error w' = error_for (sdl_error w) (device_at i w).
Proof.
  unfold detect_device, SDL_IsGameController, SDL_GameControllerOpen,
    SDL_JoystickOpen, SDL_GameControllerName, SDL_GetError, SDL_JoystickName,
    SDL_JoystickNumAxes, SDL_JoystickNumButtons, SDL_JoystickNumBalls,
    sprintf_S2D_msg, printf, S2D_Log, bind, modify, gets, ret.
  unfold device_at, details.
  destruct (if i <? 0 then None else nth_error (joysticks w) (Z.to_nat i))
    as [[nm gc [e|] ax bu ba]|] eqn:Hrow; try destruct gc;
    repeat (progress (cbn -[append dec format c_literal Z.ltb nth_error Z.to_nat fits];
                      rewrite ?Hrow));
    rewrite ?text_controller, ?text_controller_failed, ?text_generic,
      ?text_details, ?text_generic_failed;
    eexists; repeat split; cbn -[append dec];
    rewrite <- ?app_assoc, ?app_nil_r; reflexivity.
Qed.

Lemma device_at_same (i : Z) (w w' : world) :
  joysticks w' = joysticks w -> device_at i w' = device_at i w.
Proof. unfold device_at. now intros ->. Qed.

Lemma report_count_run (w : world) :
  exists w',
    report_count w = Some (tt, w')
    /\ joysticks w' = joysticks w
    /\ output w' = (output w ++ summary_for w)%list
    /\ calls w' = (calls w ++ if (0 <? device_count w)%nat
                              then [NumJoysticks; NumJoysticks]
                              else [NumJoysticks])%list
    /\ open_handles w' = open_handles w.
Proof.
  unfold report_count, SDL_NumJoysticks, sprintf_S2D_msg, S2D_Log, bind,
    modify, gets, ret, summary_for, device_count.
  cbn [joysticks record_call]. fold (device_count w).
  destruct (0 <? device_count w)%nat eqn:Hn.
  - apply Nat.ltb_lt in Hn.
    replace (Z.of_nat (device_count w) >? 0) with true by lia.
    cbn -[append dec format c_literal fits]. rewrite text_count.
    eexists; repeat split; cbn -[append dec];
      rewrite <- ?app_assoc; reflexivity.
  - apply Nat.ltb_ge in Hn.
    replace (Z.of_nat (device_count w) >? 0) with false by lia.
    eexists; repeat split; cbn; rewrite ?app_nil_r; reflexivity.
Qed.

Lemma indexes_from_seq (a n : nat) :
  indexes_from (Z.of_nat a) n = map Z.of_nat (seq a n).
Proof.
  revert a. induction n as [|n IH]; intros a; simpl; [reflexivity|].
  f_equal. rewrite <- IH. f_equal. lia.
Qed.

Lemma enumerate_step (fuel : nat) (i : Z) (w : world) :
  enumerate_joysticks (S fuel) i w
  = if i <? Z.of_nat (device_count w)
    then (detect_device i ;; enumerate_joysticks fuel (i + 1))
           (record_call NumJoysticks w)
    else Some (tt, record_call NumJoysticks w).
Proof.
  cbn [enumerate_joysticks]. unfold bind at 1.
  unfold SDL_NumJoysticks, bind at 1, modify, gets. cbn [joysticks record_call].
  unfold device_count.
  now destruct (i <? Z.of_nat (List.length (joysticks w))).
Qed.

Lemma enumerate_run (n : nat) :
  forall (fuel : nat) (i : Z) (w : world),
    i + Z.of_nat n = Z.of_nat (device_count w) ->
    (n < fuel)%nat ->
    exists w',
      enumerate_joysticks fuel i w = Some (tt, w')
      /\ joysticks w' = joysticks w
      /\ output w'
         = (output w
            ++ flat_map (fun k => lines_for k (device_at k w))
                        (indexes_from i n))%list
      /\ calls w'
         = (calls w
            ++ flat_map (fun k => NumJoysticks :: calls_for k (device_at k w))
                        (indexes_from i n)
            ++ [NumJoysticks])%list
      /\ open_handles w'
         = (open_handles w
            ++ flat_map (fun k => handles_for k (device_at k w))
                        (indexes_from i n))%list.
Proof.
  induction n as [|n IH]; intros [|fuel] i w Hi Hfuel; try lia.
  - rewrite enumerate_step.
    replace (i <? Z.of_nat (device_count w)) with false by lia.
    eexists; repeat split; cbn; rewrite ?app_nil_r; reflexivity.
  - rewrite enumerate_step.
    replace (i <? Z.of_nat (device_count w)) with true by lia.
    set (w1 := record_call NumJoysticks w). unfold bind.
    destruct (detect_device_run i w1) as (w2 & -> & Hj2 & Ho2 & Hc2 & Hh2 & _).
    assert (Hj : joysticks w2 = joysticks w) by (rewrite Hj2; reflexivity).
    destruct (IH fuel (i + 1) w2) as (w3 & -> & Hj3 & Ho3 & Hc3 & Hh3).
    { unfold device_count in *. rewrite Hj. lia. }
    { lia. }
    exists w3. split; [reflexivity|].
    assert (Hat : forall k, device_at k w2 = device_at k w)
      by (intros k; now apply device_at_same).
    assert (Hat1 : device_at i w1 = device_at i w) by reflexivity.
    assert (Hmap : forall (X : Type) (f : Z -> option device -> list X) l,
               flat_map (fun k => f k (device_at k w2)) l
               = flat_map (fun k => f k (device_at k w)) l)
      by (intros X f l; apply flat_map_ext; intros k; now rewrite Hat).
    rewrite (Hmap _ lines_for) in Ho3.
    rewrite (Hmap _ (fun k row => NumJoysticks :: calls_for k row)) in Hc3.
    rewrite (Hmap _ handles_for) in Hh3.
    rewrite Hat1 in Ho2, Hc2, Hh2.
    repeat split.
    + congruence.
    + rewrite Ho3, Ho2. cbn [indexes_from flat_map output w1 record_call].
      now rewrite <- app_assoc.
    + rewrite Hc3, Hc2. cbn [indexes_from flat_map calls w1 record_call].
      now rewrite <- !app_assoc.
    + rewrite Hh3, Hh2. cbn [indexes_from flat_map open_handles w1 record_call].
      now rewrite <- app_assoc.
Qed.


Lemma indexes_eq (w : world) : indexes w = indexes_from 0 (device_count w).
Proof. unfold indexes. symmetry. apply (indexes_from_seq 0). Qed.

Lemma written_by_detect_device (i : Z) (w : world) :
  device_output w i = lines_for i (device_at i w).
Proof.
  unfold device_output, written_by, exec.
  destruct (detect_device_run i w) as (w' & -> & _ & -> & _).
  apply since_app.
Qed.

Lemma calls_by_detect_device (i : Z) (w : world) :
  calls_by (detect_device i) w = calls_for i (device_at i w).
Proof.
  unfold calls_by, exec.
  destruct (detect_device_run i w) as (w' & -> & _ & _ & -> & _).
  apply since_app.
Qed.

Lemma opened_by_detect_device (i : Z) (w : world) :
  opened_by (detect_device i) w = handles_for i (device_at i w).
Proof.
  unfold opened_by, exec.
  destruct (detect_device_run i w) as (w' & -> & _ & _ & _ & -> & _).
  apply since_app.
Qed.

Lemma written_by_report_count (w : world) :
  written_by report_count w = summary_for w.
Proof.
  unfold written_by, exec.
  destruct (report_count_run w) as (w' & -> & _ & -> & _).
  apply since_app.
Qed.

Lemma calls_by_report_count (w : world) :
  calls_by report_count w
  = if (0 <? device_count w)%nat
    then [NumJoysticks; NumJoysticks] else [NumJoysticks].
Proof.
  unfold calls_by, exec.
  destruct (report_count_run w) as (w' & -> & _ & _ & -> & _).
  apply since_app.
Qed.

(** The whole function, by the pieces of the source: lines 11 to 14, then the
    body of the loop once per index, ascending, the loop condition being
    evaluated before every iteration and once more at the end. *)
Lemma S2D_DetectControllers_run (w : world) (fuel : nat) :
  (device_count w < fuel)%nat ->
  exists w',
    S2D_DetectControllers fuel w = Some (tt, w')
    /\ joysticks w' = joysticks w
    /\ output w'
       = (output w ++ written_by report_count w
          ++ flat_map (device_output w) (indexes w))%list
    /\ calls w'
       = (calls w ++ calls_by report_count w
          ++ flat_map (fun i => NumJoysticks :: calls_by (detect_device i) w)
                      (indexes w)
          ++ [NumJoysticks])%list
    /\ open_handles w'
       = (open_handles w
          ++ flat_map (fun i => opened_by (detect_device i) w) (indexes w))%list.
Proof.
  intros Hfuel. unfold S2D_DetectControllers, bind.
  destruct (report_count_run w) as (w1 & -> & Hj1 & Ho1 & Hc1 & Hh1).
  destruct (enumerate_run (device_count w) fuel 0 w1)
    as (w2 & -> & Hj2 & Ho2 & Hc2 & Hh2).
  { unfold device_count. rewrite Hj1. lia. }
  { exact Hfuel. }
  assert (Hat : forall k, device_at k w1 = device_at k w)
    by (intros k; now apply device_at_same).
  exists w2. split; [reflexivity|]. split; [congruence|].
  rewrite indexes_eq, written_by_report_count, calls_by_report_count.
  rewrite Ho2, Ho1, Hc2, Hc1, Hh2, Hh1, <- !app_assoc.
  repeat split.
  - do 2 f_equal. apply flat_map_ext. intros k.
    now rewrite written_by_detect_device, Hat.
  - do 2 f_equal. f_equal. apply flat_map_ext. intros k.
    now rewrite calls_by_detect_device, Hat.
  - f_equal. apply flat_map_ext. intros k.
    now rewrite opened_by_detect_device, Hat.
Qed.

(** ** Indexes *)

Lemma device_at_nat (k : nat) (w : world) :
  device_at (Z.of_nat k) w = nth_error (joysticks w) k.
Proof.
  unfold device_at. destruct (Z.ltb_spec (Z.of_nat k) 0) as [Hneg|_]; [lia|].
  now rewrite Nat2Z.id.
Qed.

Lemma device_at_range (i : Z) (w : world) (d : device) :
  device_at i w = Some d -> 0 <= i < Z.of_nat (device_count w).
Proof.
  unfold device_at, device_count. destruct (i <? 0) eqn:Hneg; [discriminate|].
  apply Z.ltb_ge in Hneg.
  intros Hd. assert (Hlt : (Z.to_nat i < List.length (joysticks w))%nat)
    by (apply nth_error_Some; congruence).
  lia.
Qed.

Lemma in_indexes (i : Z) (w : world) :
  In i (indexes w) <-> 0 <= i < Z.of_nat (device_count w).
Proof.
  unfold indexes. rewrite in_map_iff. split.
  - intros (k & <- & Hk). apply in_seq in Hk. lia.
  - intros Hi. exists (Z.to_nat i). split; [lia|]. apply in_seq. lia.
Qed.





Lemma device_at_in_indexes (i : Z) (w : world) (d : device) :
  device_at i w = Some d -> In i (indexes w).
Proof. intros Hd. apply in_indexes. now apply device_at_range in Hd. Qed.





Lemma flat_map_singletons {X Y : Type} (f : X -> list Y) (g : X -> Y)
      (l : list X) :
  (forall x, In x l -> f x = [g x]) -> flat_map f l = map g l.
Proof.
  induction l as [|x l IH]; intros Hf; [reflexivity|].
  cbn [flat_map map]. rewrite (Hf x) by now left.
  rewrite IH by (intros y Hy; apply Hf; now right). reflexivity.
Qed.

Lemma nth_error_indexes (w : world) (k : nat) :
  (k < device_count w)%nat -> nth_error (indexes w) k = Some (Z.of_nat k).
Proof.
  intros Hk. unfold indexes.
  rewrite nth_error_map, nth_error_seq.
  destruct (Nat.ltb_spec k (device_count w)) as [_|Hge]; [reflexivity | lia].
Qed.





(** What the function adds to the histories, once it has run. *)
Lemma effects_of_run (w w' : world) (fuel : nat) :
  S2D_DetectControllers fuel w = Some (tt, w') ->
  (device_count w < fuel)%nat ->
  written_by (S2D_DetectControllers fuel) w
  = (written_by report_count w ++ flat_map (device_output w) (indexes w))%list
  /\ calls_by (S2D_DetectControllers fuel) w
     = (calls_by report_count w
        ++ flat_map (fun k => NumJoysticks :: calls_by (detect_device k) w)
                    (indexes w)
        ++ [NumJoysticks])%list
  /\ opened_by (S2D_DetectControllers fuel) w
     = flat_map (fun k => opened_by (detect_device k) w) (indexes w).
Proof.
  intros Hrun Hfuel.
  destruct (S2D_DetectControllers_run w fuel Hfuel)
    as (w'' & Hrun' & _ & Hout & Hcalls & Hopen).
  unfold written_by, calls_by, opened_by, exec. rewrite Hrun'.
  rewrite Hout, Hcalls, Hopen, !since_app. repeat split.
Qed.


Lemma indexes_NoDup (w : world) : NoDup (indexes w).
Proof.
  unfold indexes. apply NoDup_map_NoDup_ForallPairs; [|apply seq_NoDup].
  intros a b _ _ Hab. lia.
Qed.

Lemma opens_in_loop (w : world) (i : Z) (l : list Z) :
  List.length
    (filter (is_open_of i)
            (flat_map (fun k => NumJoysticks :: calls_by (detect_device k) w)
                      l))
  = count_occ Z.eq_dec l i.
Proof.
  induction l as [|k l IH]; [reflexivity|].
  cbn [flat_map]. rewrite filter_app, length_app, IH, calls_by_detect_device.
  cbn [count_occ].
  destruct (Z.eq_dec k i) as [->|Hne].
  - destruct (device_at i w) as [[nm [|] [e|] ax bu ba]|];
      cbn; rewrite Z.eqb_refl; reflexivity.
  - apply Z.eqb_neq in Hne.
    destruct (device_at k w) as [[nm [|] [e|] ax bu ba]|];
      cbn; rewrite Hne; reflexivity.
Qed.

Lemma opens_whole (w : world) (i : Z) :
  In i (indexes w) ->
  List.length
    (filter (is_open_of i)
            (calls_by report_count w
             ++ flat_map (fun k => NumJoysticks :: calls_by (detect_device k) w)
                         (indexes w)
             ++ [NumJoysticks]))
  = 1%nat.
Proof.
  intros Hi. rewrite !filter_app, !length_app, opens_in_loop.
  rewrite calls_by_report_count.
  assert (Hone : count_occ Z.eq_dec (indexes w) i = 1%nat)
    by (apply NoDup_count_occ'; [apply indexes_NoDup | exact Hi]).
  rewrite Hone. now destruct (0 <? device_count w)%nat.
Qed.

(** Closing is the call that takes a handle out of the open ones; the
    history shows it. *)
Lemma SDL_JoystickClose_closes (j : SDL_Joystick) (w : world) :
  exists w',
    SDL_JoystickClose j w = Some (tt, w')
    /\ ~ In (joystick_handle j) (open_handles w')
    /\ existsb is_close (calls_by (SDL_JoystickClose j) w) = true.
Proof.
  eexists. split; [reflexivity|]. split.
  - cbn. intros Hin. apply filter_In in Hin. destruct Hin as [_ Hneq].
    cbn in Hneq. now rewrite Z.eqb_refl in Hneq.
  - unfold calls_by, exec. cbn. rewrite since_app. reflexivity.
Qed.

Lemma SDL_GameControllerClose_closes (c : SDL_GameController) (w : world) :
  exists w',
    SDL_GameControllerClose c w = Some (tt, w')
    /\ ~ In (controller_handle c) (open_handles w')
    /\ existsb is_close (calls_by (SDL_GameControllerClose c) w) = true.
Proof.
  eexists. split; [reflexivity|]. split.
  - cbn. intros Hin. apply filter_In in Hin. destruct Hin as [_ Hneq].
    cbn in Hneq. now rewrite Z.eqb_refl in Hneq.
  - unfold calls_by, exec. cbn. rewrite since_app. reflexivity.
Qed.

Lemma log_messages_app (a b : list written) :
  log_messages (a ++ b) = (log_messages a ++ log_messages b)%list.
Proof. apply flat_map_app. Qed.

(** ** The buffer *)

Ltac bool_cases :=
  repeat match goal with
         | |- context [fits ?n ?t] => destruct (fits n t)
         | |- context [overrun ?w] => destruct (overrun w)
         end;
  reflexivity.

Lemma detect_device_overrun (i : Z) (w : world) :
  exists w',
    detect_device i w = Some (tt, w')
    /\ S2D_msg_size w' = S2D_msg_size w
    /\ overrun w'
       = (overrun w
          || negb (forallb (fits (S2D_msg_size w))
                           (log_messages (lines_for i (device_at i w)))))%bool.
Proof.
  unfold detect_device, SDL_IsGameController, SDL_GameControllerOpen,
    SDL_JoystickOpen, SDL_GameControllerName, SDL_GetError, SDL_JoystickName,
    SDL_JoystickNumAxes, SDL_JoystickNumButtons, SDL_JoystickNumBalls,
    sprintf_S2D_msg, printf, S2D_Log, bind, modify, gets, ret.
  unfold device_at, details.
  destruct (if i <? 0 then None else nth_error (joysticks w) (Z.to_nat i))
    as [[nm gc [e|] ax bu ba]|] eqn:Hrow; try destruct gc;
    repeat (progress (cbn -[append dec format c_literal Z.ltb nth_error Z.to_nat fits];
                      rewrite ?Hrow));
    rewrite ?text_controller, ?text_controller_failed, ?text_generic,
      ?text_details, ?text_generic_failed;
    eexists; (split; [reflexivity|]); (split; [reflexivity|]);
    cbn -[append dec fits]; bool_cases.
Qed.

Lemma report_count_overrun (w : world) :
  exists w',
    report_count w = Some (tt, w')
    /\ S2D_msg_size w' = S2D_msg_size w
    /\ overrun w'
       = (overrun w
          || negb (forallb (fits (S2D_msg_size w))
                           (log_messages (summary_for w))))%bool.
Proof.
  unfold report_count, SDL_NumJoysticks, sprintf_S2D_msg, S2D_Log, bind,
    modify, gets, ret, summary_for, device_count.
  cbn [joysticks record_call]. fold (device_count w).
  destruct (0 <? device_count w)%nat eqn:Hn.
  - apply Nat.ltb_lt in Hn.
    replace (Z.of_nat (device_count w) >? 0) with true by lia.
    cbn -[append dec format c_literal fits]. rewrite text_count.
    eexists; (split; [reflexivity|]); (split; [reflexivity|]);
      unfold device_count; cbn -[append dec fits]; bool_cases.
  - apply Nat.ltb_ge in Hn.
    replace (Z.of_nat (device_count w) >? 0) with false by lia.
    eexists; (split; [reflexivity|]); (split; [reflexivity|]).
    cbn. now rewrite orb_false_r.
Qed.

Lemma overrun_step (before : bool) (size : nat) (a b : list string) :
  ((before || negb (forallb (fits size) a))
   || negb (forallb (fits size) b))%bool
  = (before || negb (forallb (fits size) (a ++ b)))%bool.
Proof.
  rewrite forallb_app.
  now destruct before, (forallb (fits size) a), (forallb (fits size) b).
Qed.

Lemma enumerate_overrun (n : nat) :
  forall (fuel : nat) (i : Z) (w : world),
    i + Z.of_nat n = Z.of_nat (device_count w) ->
    (n < fuel)%nat ->
    exists w',
      enumerate_joysticks fuel i w = Some (tt, w')
      /\ S2D_msg_size w' = S2D_msg_size w
      /\ overrun w'
         = (overrun w
            || negb (forallb (fits (S2D_msg_size w))
                             (log_messages
                                (flat_map (fun k => lines_for k (device_at k w))
                                          (indexes_from i n)))))%bool.
Proof.
  induction n as [|n IH]; intros [|fuel] i w Hi Hfuel; try lia.
  - rewrite enumerate_step.
    replace (i <? Z.of_nat (device_count w)) with false by lia.
    eexists; (split; [reflexivity|]); (split; [reflexivity|]).
    cbn. now rewrite orb_false_r.
  - rewrite enumerate_step.
    replace (i <? Z.of_nat (device_count w)) with true by lia.
    set (w1 := record_call NumJoysticks w). unfold bind.
    destruct (detect_device_run i w1) as (w2 & Hrun & Hj2 & _).
    destruct (detect_device_overrun i w1) as (w2' & Hrun' & Hs2 & Ho2).
    rewrite Hrun in Hrun'. injection Hrun' as <-. rewrite Hrun.
    assert (Hj : joysticks w2 = joysticks w) by (rewrite Hj2; reflexivity).
    destruct (IH fuel (i + 1) w2) as (w3 & -> & Hs3 & Ho3).
    { unfold device_count in *. rewrite Hj. lia. }
    { lia. }
    exists w3. split; [reflexivity|].
    assert (Hat : forall k, device_at k w2 = device_at k w)
      by (intros k; now apply device_at_same).
    assert (Hat1 : device_at i w1 = device_at i w) by reflexivity.
    rewrite Hat1 in Ho2. change (S2D_msg_size w1) with (S2D_msg_size w) in *.
    change (overrun w1) with (overrun w) in Ho2.
    split; [congruence|].
    rewrite Ho3, Ho2, Hs2, overrun_step, <- log_messages_app.
    cbn [indexes_from flat_map]. do 5 f_equal.
    apply flat_map_ext. intros k. now rewrite Hat.
Qed.

(** The buffer is overrun by a run exactly when one of the messages of the
    run does not fit it. *)
Lemma S2D_DetectControllers_overrun (w : world) (fuel : nat) :
  (device_count w < fuel)%nat ->
  exists w',
    S2D_DetectControllers fuel w = Some (tt, w')
    /\ S2D_msg_size w' = S2D_msg_size w
    /\ log_messages (written_by (S2D_DetectControllers fuel) w) = messages w
    /\ overrun w' = (overrun w || negb (buffer_suffices w))%bool.
Proof.
  intros Hfuel.
  destruct (S2D_DetectControllers_run w fuel Hfuel) as (w' & Hrun & _).
  destruct (effects_of_run w w' fuel Hrun Hfuel) as (Hwritten & _).
  destruct (S2D_DetectControllers_run w (S (device_count w)))
    as (w0 & Hrun0 & _); [lia|].
  destruct (effects_of_run w w0 _ Hrun0) as (Hwritten0 & _); [lia|].
  assert (Hmessages : log_messages (written_by (S2D_DetectControllers fuel) w)
                      = messages w)
    by (unfold messages; now rewrite Hwritten, Hwritten0).
  unfold buffer_suffices. rewrite <- Hmessages, Hwritten. clear Hwritten0 Hrun0.
  revert Hrun. unfold S2D_DetectControllers, bind.
  destruct (report_count_run w) as (w1 & Hrun1 & Hj1 & _).
  destruct (report_count_overrun w) as (w1' & Hrun1' & Hs1 & Ho1).
  rewrite Hrun1 in Hrun1'. injection Hrun1' as <-. rewrite Hrun1.
  destruct (enumerate_overrun (device_count w) fuel 0 w1)
    as (w2 & -> & Hs2 & Ho2).
  { unfold device_count. rewrite Hj1. lia. }
  { exact Hfuel. }
  intros Hrun. injection Hrun as <-.
  exists w2. split; [reflexivity|]. split; [congruence|].
  split; [now rewrite <- Hwritten|].
  assert (Hat : forall k, device_at k w1 = device_at k w)
    by (intros k; now apply device_at_same).
  rewrite Ho2, Ho1, Hs1, overrun_step, <- log_messages_app.
  rewrite written_by_report_count, indexes_eq. do 5 f_equal.
  apply flat_map_ext. intros k. now rewrite written_by_detect_device, Hat.
Qed.

(** A run that starts with the buffer intact and whose messages all fit
    leaves it intact, and each message of the run fits. *)
Lemma buffer_intact (w : world) (fuel : nat) :
  overrun w = false ->
  buffer_suffices w = true ->
  (device_count w < fuel)%nat ->
  exists w',
    S2D_DetectControllers fuel w = Some (tt, w')
    /\ overrun w' = false
    /\ forall msg type,
         In (Log msg type) (written_by (S2D_DetectControllers fuel) w) ->
         fits (S2D_msg_size w) msg = true.
Proof.
  intros Hintact Hfit Hfuel.
  destruct (S2D_DetectControllers_overrun w fuel Hfuel)
    as (w' & Hrun & _ & Hmessages & Hover).
  exists w'. split; [exact Hrun|].
  split; [now rewrite Hover, Hintact, Hfit|].
  intros msg type Hin. unfold buffer_suffices in Hfit.
  rewrite forallb_forall in Hfit. apply Hfit. rewrite <- Hmessages.
  unfold log_messages. apply in_flat_map. eexists. split; [exact Hin|].
  now left.
Qed.

(** ** The claims *)

(** C1, as the spec words it, fails on a table of one controller that
    opens: the function writes two info lines, the summary and the line of
    the device, not one.  It also fails on a controller that opens and whose
    name is longer than the buffer: the [sprintf] of line 27 writes past the
    end of [S2D_msg]. *)
Lemma one_controller_two_info_lines :
  Forall (fun d => is_game_controller d = true /\ open_failure d = None)
         (joysticks (fresh [pad]))
  /\ written_by (S2D_DetectControllers 2) (fresh [pad])
     = [Log "Controllers detected: 1" S2D_INFO;
        Log ("Controller #0: Pad" ++ nl) S2D_INFO]
  /\ List.length (info_lines (written_by (S2D_DetectControllers 2)
                                         (fresh [pad])))
     <> device_count (fresh [pad])
  /\ Forall (fun d => is_game_controller d = true /\ open_failure d = None)
            (joysticks (fresh [long_pad]))
  /\ S2D_msg_size (fresh [long_pad]) = 1024%nat
  /\ String.length ("Controller #0: " ++ name long_pad ++ nl) = 2016%nat
  /\ option_map overrun (exec (S2D_DetectControllers 2) (fresh [long_pad]))
     = Some true.
Proof.
  split; [repeat constructor|]. split; [reflexivity|].
  split; [vm_compute; discriminate|].
  split; [repeat constructor|].
  repeat split; vm_compute; reflexivity.
Qed.

(** C1, amended.  When every device supports the controller interface and
    opens, and every message fits the buffer [S2D_msg], the function writes
    the summary line (if there is a device) and then exactly one info line
    per device, in the order of the indexes, the line of a device carrying
    its index and its declared name; nothing else is written, and the buffer
    is not overrun. *)
Theorem controllers_all_reported (w : world) (fuel : nat) :
  Forall (fun d => is_game_controller d = true /\ open_failure d = None)
         (joysticks w) ->
  overrun w = false ->
  buffer_suffices w = true ->
  (device_count w < fuel)%nat ->
  exists w' per_device,
    S2D_DetectControllers fuel w = Some (tt, w')
    /\ overrun w' = false
    /\ output w' = (output w ++ written_by report_count w ++ per_device)%list
    /\ written_by report_count w
       = (if (0 <? device_count w)%nat
          then [Log ("Controllers detected: "
                     ++ dec (Z.of_nat (device_count w))) S2D_INFO]
          else [])
    /\ per_device = flat_map (device_output w) (indexes w)
    /\ List.length per_device = device_count w
    /\ List.length (info_lines per_device) = device_count w
    /\ per_device = map (fun msg => Log msg S2D_INFO) (info_lines per_device)
    /\ (forall k d,
           nth_error (joysticks w) k = Some d ->
           nth_error per_device k
           = Some (Log ("Controller #" ++ dec (Z.of_nat k) ++ ": "
                        ++ name d ++ nl) S2D_INFO)
           /\ device_output w (Z.of_nat k)
              = [Log ("Controller #" ++ dec (Z.of_nat k) ++ ": "
                      ++ name d ++ nl) S2D_INFO]
           /\ contains (name d)
                       ("Controller #" ++ dec (Z.of_nat k) ++ ": "
                        ++ name d ++ nl)).
Proof.
  intros Hall Hintact Hfit Hfuel.
  destruct (S2D_DetectControllers_run w fuel Hfuel)
    as (w' & Hrun & _ & Hout & _).
  destruct (buffer_intact w fuel Hintact Hfit Hfuel)
    as (w'' & Hrun' & Hover & _).
  rewrite Hrun in Hrun'. injection Hrun' as <-.
  exists w', (flat_map (device_output w) (indexes w)).
  split; [exact Hrun|]. split; [exact Hover|]. split; [exact Hout|].
  split; [apply written_by_report_count|]. split; [reflexivity|].
  assert (Hdev : forall k d,
             nth_error (joysticks w) k = Some d ->
             device_output w (Z.of_nat k)
             = [Log ("Controller #" ++ dec (Z.of_nat k) ++ ": "
                     ++ name d ++ nl) S2D_INFO]).
  { intros k d Hk. rewrite written_by_detect_device, device_at_nat, Hk.
    rewrite Forall_forall in Hall.
    destruct (Hall d (nth_error_In _ _ Hk)) as [Hgc Hopen].
    cbn [lines_for]. now rewrite Hgc, Hopen. }
  assert (Hidx : forall i,
             In i (indexes w) ->
             exists msg, device_output w i = [Log msg S2D_INFO]).
  { intros i Hi. apply in_indexes in Hi.
    destruct (nth_error (joysticks w) (Z.to_nat i)) as [d|] eqn:Hd.
    - apply Hdev in Hd. rewrite Z2Nat.id in Hd by lia. eexists. exact Hd.
    - apply nth_error_None in Hd. unfold device_count in Hi. lia. }
  set (line := fun i => hd (Stdout "") (device_output w i)).
  assert (Hflat : flat_map (device_output w) (indexes w)
                  = map line (indexes w)).
  { apply flat_map_singletons. intros i Hi. unfold line.
    destruct (Hidx i Hi) as (msg & ->). reflexivity. }
  assert (Hinfo : forall l,
             (forall i, In i l -> In i (indexes w)) ->
             map line l
             = map (fun msg => Log msg S2D_INFO) (info_lines (map line l))).
  { induction l as [|i l IH]; intros Hin; [reflexivity|].
    assert (Hi : In i (indexes w)) by (apply Hin; now left).
    cbn [map]. change (line i) with (hd (Stdout "") (device_output w i)).
    destruct (Hidx i Hi) as (msg & ->).
    cbn [hd info_lines flat_map app map].
    f_equal. apply IH. intros y Hy. apply Hin. now right. }
  rewrite Hflat.
  assert (Hlen : List.length (map line (indexes w)) = device_count w)
    by (unfold indexes; now rewrite !length_map, length_seq).
  split; [exact Hlen|].
  split.
  { rewrite <- Hlen. rewrite (Hinfo (indexes w)) at 2 by auto.
    now rewrite length_map. }
  split; [apply Hinfo; auto|].
  intros k d Hk. split; [|split].
  - assert (Hlt : (k < device_count w)%nat)
      by (apply nth_error_Some; unfold device_count; congruence).
    rewrite nth_error_map, (nth_error_indexes w k Hlt). cbn [option_map].
    unfold line. now rewrite (Hdev _ _ Hk).
  - now apply Hdev.
  - occurs.
Qed.

Lemma controllers_all_reported_witness :
  exists w' per_device,
    S2D_DetectControllers 3 (fresh [pad; pad]) = Some (tt, w')
    /\ overrun w' = false
    /\ output w'
       = (Log "Controllers detected: 2" S2D_INFO :: per_device)
    /\ List.length (info_lines per_device) = 2%nat.
Proof.
  destruct (controllers_all_reported (fresh [pad; pad]) 3)
    as (w' & per_device & Hrun & Hover & Hout & Hsum & _ & _ & Hlen & _).
  - repeat constructor.
  - reflexivity.
  - vm_compute. reflexivity.
  - vm_compute. lia.
  - exists w', per_device. rewrite Hsum in Hout.
    repeat split; assumption.
Defined.










(** C6, as the spec words it, fails on a device without the controller
    capability.  When it does not open, the subsystem's error text is in no
    error line of the output.  And the info line of such a device is the same
    whether it opens or not, so no line of info severity reports that it
    opened: the details report does, on standard output.  The claim also
    fails on a controller that opens and whose name is longer than the
    buffer: the [sprintf] of line 27 writes past the end of [S2D_msg]. *)
Lemma generic_failure_lacks_error_text :
  device_at 3 four_devices = Some broken_stick
  /\ open_failure broken_stick = Some "Unable to open /dev/input/js3"
  /\ exec (detect_device 3) four_devices
     = Some (mkWorld (joysticks four_devices) "Unable to open /dev/input/js3"
                     [] 1024 "Could not open generic controller #3" false
                     [Log "Generic controller #3" S2D_INFO;
                      Log "Could not open generic controller #3" S2D_ERROR]
                     [IsGameController 3; JoystickOpen 3])
  /\ device_output (fresh [stick]) 0
     = [Log "Generic controller #0" S2D_INFO; Stdout (details stick)]
  /\ info_lines (device_output (fresh [stick]) 0)
     = info_lines (device_output (fresh [broken_stick]) 0)
  /\ ~ (exists msg,
           In (Log msg S2D_ERROR)
              (written_by (S2D_DetectControllers 5) four_devices)
           /\ contains "Unable to open /dev/input/js3" msg)
  /\ S2D_msg_size (fresh [long_pad]) = 1024%nat
  /\ String.length ("Controller #0: " ++ name long_pad ++ nl) = 2016%nat
  /\ option_map overrun (exec (S2D_DetectControllers 2) (fresh [long_pad]))
     = Some true.
Proof.
  do 5 (split; [reflexivity|]).
  split; [|repeat split; vm_compute; reflexivity].
  intros (msg & Hin & Hcontains). apply containsb_iff in Hcontains.
  assert (Hwritten :
            written_by (S2D_DetectControllers 5) four_devices
            = [Log "Controllers detected: 4" S2D_INFO;
               Log ("Controller #0: Pad" ++ nl) S2D_INFO;
               Log "Generic controller #1" S2D_INFO;
               Stdout (details stick);
               Log ("Could not open controller #2: "
                    ++ "Couldn't find mapping for device (2)" ++ nl) S2D_ERROR;
               Log "Generic controller #3" S2D_INFO;
               Log "Could not open generic controller #3" S2D_ERROR])
    by (vm_compute; reflexivity).
  rewrite Hwritten in Hin. cbn [In] in Hin.
  destruct Hin as [Hin|[Hin|[Hin|[Hin|[Hin|[Hin|[Hin|[]]]]]]]];
    try discriminate; injection Hin as <-;
    revert Hcontains; vm_compute; discriminate.
Qed.

(** C6, amended.  When every message fits the buffer [S2D_msg], the buffer
    is not overrun, every device is opened exactly once, through one of the
    two open calls, and the function returns (there is nothing but [tt] to
    return).  If the device opens, no error line is written for it: a
    controller has its info line, a generic device its info line followed by
    the details report on standard output.  If it does not open, exactly one
    error line is written for it; the line carries the index and, for a
    controller, the subsystem's error text. *)
Theorem each_device_opened_once_with_two_outcomes
        (w : world) (fuel : nat) (i : Z) (d : device) :
  device_at i w = Some d ->
  overrun w = false ->
  buffer_suffices w = true ->
  (device_count w < fuel)%nat ->
  exists w',
    S2D_DetectControllers fuel w = Some (tt, w')
    /\ overrun w' = false
    /\ output w'
       = (output w ++ written_by report_count w
          ++ flat_map (device_output w) (indexes w))%list
    /\ In i (indexes w)
    /\ List.length (filter (is_open_of i)
                           (calls_by (S2D_DetectControllers fuel) w))
       = 1%nat
    /\ match open_failure d with
       | None =>
           error_lines (device_output w i) = []
           /\ device_output w i
              = if is_game_controller d
                then [Log ("Controller #" ++ dec i ++ ": " ++ name d ++ nl)
                          S2D_INFO]
                else [Log ("Generic controller #" ++ dec i) S2D_INFO;
                      Stdout (details d)]
       | Some e =>
           exists msg,
             error_lines (device_output w i) = [msg]
             /\ contains (dec i) msg
             /\ (is_game_controller d = true -> contains e msg)
       end.
Proof.
  intros Hd Hintact Hfit Hfuel.
  destruct (S2D_DetectControllers_run w fuel Hfuel)
    as (w' & Hrun & _ & Hout & _).
  destruct (buffer_intact w fuel Hintact Hfit Hfuel)
    as (w'' & Hrun' & Hover & _).
  rewrite Hrun in Hrun'. injection Hrun' as <-.
  destruct (effects_of_run w w' fuel Hrun Hfuel) as (_ & Hcalls & _).
  assert (Hi : In i (indexes w)) by now apply device_at_in_indexes with d.
  exists w'. split; [exact Hrun|]. split; [exact Hover|].
  split; [exact Hout|]. split; [exact Hi|].
  split; [rewrite Hcalls; now apply opens_whole|].
  rewrite written_by_detect_device, Hd. cbn [lines_for].
  destruct (open_failure d) as [e|], (is_game_controller d);
    cbn [error_lines flat_map app].
  - eexists. split; [reflexivity|]. split.
    + occurs.
    + intros _. occurs.
  - eexists. split; [reflexivity|]. split.
    + occurs.
    + discriminate.
  - split; reflexivity.
  - split; reflexivity.
Qed.

Lemma each_device_opened_once_with_two_outcomes_witness :
  exists w',
    S2D_DetectControllers 5 four_devices = Some (tt, w')
    /\ overrun w' = false
    /\ List.length (filter (is_open_of 3)
                           (calls_by (S2D_DetectControllers 5) four_devices))
       = 1%nat
    /\ exists msg,
        error_lines (device_output four_devices 3) = [msg]
        /\ contains (dec 3) msg.
Proof.
  destruct (each_device_opened_once_with_two_outcomes
              four_devices 5 3 broken_stick eq_refl eq_refl)
    as (w' & Hrun & Hover & _ & _ & Honce & msg & Hline & Hindex & _).
  - vm_compute. reflexivity.
  - vm_compute. lia.
  - exists w'. split; [exact Hrun|]. split; [exact Hover|].
    split; [exact Honce|].
    exists msg. split; [exact Hline | exact Hindex].
Defined.










(** ** Further properties of [S2D_DetectControllers] *)

Lemma last_cons_default {X : Type} (x : X) (l : list X) (d d' : X) :
  last (x :: l) d = last (x :: l) d'.
Proof.
  revert x. induction l as [|y l IH]; intros x; [reflexivity|].
  change (last (x :: y :: l) d) with (last (y :: l) d).
  change (last (x :: y :: l) d') with (last (y :: l) d'). apply IH.
Qed.

Lemma last_app {X : Type} (a b : list X) (d : X) :
  last (a ++ b) d = last b (last a d).
Proof.
  revert d. induction a as [|x a IH]; intros d; [reflexivity|].
  destruct a as [|y a].
  - destruct b as [|z b]; [reflexivity|].
    change (last ([x] ++ z :: b) d) with (last (z :: b) d).
    apply last_cons_default.
  - change (last ((x :: y :: a) ++ b) d) with (last ((y :: a) ++ b) d).
    change (last (x :: y :: a) d) with (last (y :: a) d). apply IH.
Qed.

Lemma fold_left_ext {X Y : Type} (f g : X -> Y -> X) (l : list Y) (a : X) :
  (forall x y, f x y = g x y) -> fold_left f l a = fold_left g l a.
Proof.
  intros Hfg. revert a. induction l as [|y l IH]; intros a; [reflexivity|].
  cbn [fold_left]. now rewrite Hfg, IH.
Qed.

Lemma detect_device_msg (i : Z) (w : world) :
  exists w',
    detect_device i w = Some (tt, w')
    /\ S2D_msg w'
       = last (log_messages (lines_for i (device_at i w))) (S2D_msg w).
Proof.
  unfold detect_device, SDL_IsGameController, SDL_GameControllerOpen,
    SDL_JoystickOpen, SDL_GameControllerName, SDL_GetError, SDL_JoystickName,
    SDL_JoystickNumAxes, SDL_JoystickNumButtons, SDL_JoystickNumBalls,
    sprintf_S2D_msg, printf, S2D_Log, bind, modify, gets, ret.
  unfold device_at, details.
  destruct (if i <? 0 then None else nth_error (joysticks w) (Z.to_nat i))
    as [[nm gc [e|] ax bu ba]|] eqn:Hrow; try destruct gc;
    repeat (progress (cbn -[append dec format c_literal Z.ltb nth_error Z.to_nat fits];
                      rewrite ?Hrow));
    rewrite ?text_controller, ?text_controller_failed, ?text_generic,
      ?text_details, ?text_generic_failed;
    eexists; (split; [reflexivity|]); reflexivity.
Qed.

Lemma report_count_msg (w : world) :
  exists w',
    report_count w = Some (tt, w')
    /\ S2D_msg w' = last (log_messages (summary_for w)) (S2D_msg w)
    /\ sdl_error w' = sdl_error w.
Proof.
  unfold report_count, SDL_NumJoysticks, sprintf_S2D_msg, S2D_Log, bind,
    modify, gets, ret, summary_for, device_count.
  cbn [joysticks record_call]. fold (device_count w).
  destruct (0 <? device_count w)%nat eqn:Hn.
  - apply Nat.ltb_lt in Hn.
    replace (Z.of_nat (device_count w) >? 0) with true by lia.
    cbn -[append dec format c_literal fits]. rewrite text_count.
    eexists; repeat split; reflexivity.
  - apply Nat.ltb_ge in Hn.
    replace (Z.of_nat (device_count w) >? 0) with false by lia.
    eexists; repeat split; reflexivity.
Qed.

Lemma enumerate_state (n : nat) :
  forall (fuel : nat) (i : Z) (w : world),
    i + Z.of_nat n = Z.of_nat (device_count w) ->
    (n < fuel)%nat ->
    exists w',
      enumerate_joysticks fuel i w = Some (tt, w')
      /\ S2D_msg w'
         = last (log_messages
                   (flat_map (fun k => lines_for k (device_at k w))
                             (indexes_from i n)))
                (S2D_msg w)
      /\ sdl_error w'
         = fold_left (fun e k => error_for e (device_at k w))
                     (indexes_from i n) (sdl_error w).
Proof.
  induction n as [|n IH]; intros [|fuel] i w Hi Hfuel; try lia.
  - rewrite enumerate_step.
    replace (i <? Z.of_nat (device_count w)) with false by lia.
    eexists; repeat split; reflexivity.
  - rewrite enumerate_step.
    replace (i <? Z.of_nat (device_count w)) with true by lia.
    set (w1 := record_call NumJoysticks w). unfold bind.
    destruct (detect_device_run i w1) as (w2 & Hrun & Hj2 & _ & _ & _ & He2).
    destruct (detect_device_msg i w1) as (w2' & Hrun' & Hm2).
    rewrite Hrun in Hrun'. injection Hrun' as <-. rewrite Hrun.
    assert (Hj : joysticks w2 = joysticks w) by (rewrite Hj2; reflexivity).
    destruct (IH fuel (i + 1) w2) as (w3 & -> & Hm3 & He3).
    { unfold device_count in *. rewrite Hj. lia. }
    { lia. }
    exists w3. split; [reflexivity|].
    assert (Hat : forall k, device_at k w2 = device_at k w)
      by (intros k; now apply device_at_same).
    assert (Hat1 : device_at i w1 = device_at i w) by reflexivity.
    rewrite Hat1 in Hm2, He2. split.
    + rewrite Hm3, Hm2. cbn [indexes_from flat_map].
      rewrite log_messages_app, last_app. f_equal. f_equal.
      apply flat_map_ext. intros k. now rewrite Hat.
    + rewrite He3, He2. cbn [indexes_from fold_left]. 
      apply fold_left_ext. intros e k. now rewrite Hat.
Qed.

Lemma nth_error_all {X : Type} (l : list X) :
  map (nth_error l) (seq 0 (List.length l)) = map Some l.
Proof.
  induction l as [|x l IH]; [reflexivity|].
  cbn [List.length seq map nth_error]. f_equal.
  rewrite <- seq_shift, map_map. exact IH.
Qed.

Lemma rows_of_table (w : world) :
  map (fun k => device_at k w) (indexes w) = map Some (joysticks w).
Proof.
  unfold indexes, device_count. rewrite map_map, <- nth_error_all.
  apply map_ext. intros k. apply device_at_nat.
Qed.


Lemma fold_errors (l : list device) (e0 : string) :
  fold_left error_for (map Some l) e0 = last (failures l) e0.
Proof.
  revert e0. induction l as [|d l IH]; intros e0; [reflexivity|].
  cbn [map fold_left failures flat_map]. rewrite IH, last_app.
  cbn [error_for]. now destruct (open_failure d).
Qed.

Lemma S2D_DetectControllers_state (w : world) (fuel : nat) :
  (device_count w < fuel)%nat ->
  exists w',
    S2D_DetectControllers fuel w = Some (tt, w')
    /\ S2D_msg w'
       = last (log_messages (written_by (S2D_DetectControllers fuel) w))
              (S2D_msg w)
    /\ sdl_error w' = last (failures (joysticks w)) (sdl_error w).
Proof.
  intros Hfuel.
  destruct (S2D_DetectControllers_run w fuel Hfuel) as (w' & Hrun & _).
  destruct (effects_of_run w w' fuel Hrun Hfuel) as (Hwritten & _).
  rewrite Hwritten. clear Hwritten. revert Hrun.
  unfold S2D_DetectControllers, bind.
  destruct (report_count_run w) as (w1 & Hrun1 & Hj1 & _).
  destruct (report_count_msg w) as (w1' & Hrun1' & Hm1 & He1).
  rewrite Hrun1 in Hrun1'. injection Hrun1' as <-. rewrite Hrun1.
  destruct (enumerate_state (device_count w) fuel 0 w1)
    as (w2 & -> & Hm2 & He2).
  { unfold device_count. rewrite Hj1. lia. }
  { exact Hfuel. }
  intros Hrun. injection Hrun as <-.
  exists w2. split; [reflexivity|].
  assert (Hat : forall k, device_at k w1 = device_at k w)
    by (intros k; now apply device_at_same).
  split.
  - rewrite Hm2, Hm1, written_by_report_count, log_messages_app, last_app.
    rewrite indexes_eq. f_equal. f_equal. apply flat_map_ext. intros k.
    now rewrite written_by_detect_device, Hat.
  - rewrite He2, He1, <- indexes_eq.
    rewrite (fold_left_ext _ (fun e k => error_for e (device_at k w)))
      by (intros e k; now rewrite Hat).
    rewrite <- fold_errors, <- rows_of_table.
    generalize (sdl_error w). generalize (indexes w).
    induction l as [|k l IH]; intros e; [reflexivity|].
    cbn [map fold_left]. apply IH.
Qed.

Lemma last_in {X : Type} (l : list X) (d : X) :
  l <> [] -> In (last l d) l.
Proof.
  induction l as [|x l IH]; intros Hne; [congruence|].
  destruct l as [|y l]; [now left|].
  right. apply IH. discriminate.
Qed.

Lemma in_log_messages (msg : string) (l : list written) :
  In msg (log_messages l) -> exists type, In (Log msg type) l.
Proof.
  unfold log_messages. rewrite in_flat_map. intros (x & Hx & Hmsg).
  destruct x as [m type|text]; [|contradiction].
  destruct Hmsg as [<-|[]]. now exists type.
Qed.

(** X1. When every message fits the buffer [S2D_msg], the buffer is not
    overrun and is left holding the message of the last line the function
    handed to the logging sink: with no device it is untouched, and otherwise
    it is a message found in the output, which fits.  The details report does
    not pass through the buffer. *)
Theorem buffer_holds_last_message (w : world) (fuel : nat) :
  overrun w = false ->
  buffer_suffices w = true ->
  (device_count w < fuel)%nat ->
  exists w',
    S2D_DetectControllers fuel w = Some (tt, w')
    /\ overrun w' = false
    /\ S2D_msg_size w' = S2D_msg_size w
    /\ S2D_msg w'
       = last (log_messages (written_by (S2D_DetectControllers fuel) w))
              (S2D_msg w)
    /\ (device_count w = 0%nat -> S2D_msg w' = S2D_msg w)
    /\ ((0 < device_count w)%nat ->
        fits (S2D_msg_size w) (S2D_msg w') = true
        /\ exists type,
            In (Log (S2D_msg w') type)
               (written_by (S2D_DetectControllers fuel) w)).
Proof.
  intros Hintact Hfit Hfuel.
  destruct (S2D_DetectControllers_state w fuel Hfuel) as (w' & Hrun & Hmsg & _).
  destruct (buffer_intact w fuel Hintact Hfit Hfuel)
    as (w'' & Hrun' & Hover & Hfits).
  rewrite Hrun in Hrun'. injection Hrun' as <-.
  destruct (S2D_DetectControllers_overrun w fuel Hfuel)
    as (w'' & Hrun' & Hsize & _).
  rewrite Hrun in Hrun'. injection Hrun' as <-.
  destruct (effects_of_run w w' fuel Hrun Hfuel) as (Hwritten & _).
  exists w'. split; [exact Hrun|]. split; [exact Hover|].
  split; [exact Hsize|]. split; [exact Hmsg|]. split.
  - intros Hzero. rewrite Hmsg, Hwritten, written_by_report_count.
    unfold summary_for, indexes. now rewrite Hzero.
  - intros Hpos.
    assert (Hin : exists type,
               In (Log (S2D_msg w') type)
                  (written_by (S2D_DetectControllers fuel) w)).
    { apply in_log_messages. rewrite Hmsg. apply last_in.
      rewrite Hwritten, written_by_report_count. unfold summary_for.
      apply Nat.ltb_lt in Hpos. rewrite Hpos. discriminate. }
    split; [|exact Hin]. destruct Hin as (type & Hin).
    now apply (Hfits _ type).
Qed.

Lemma buffer_holds_last_message_witness :
  exists w',
    S2D_DetectControllers 2 (fresh [stick]) = Some (tt, w')
    /\ overrun w' = false
    /\ S2D_msg w' = "Generic controller #0"
    /\ last (written_by (S2D_DetectControllers 2) (fresh [stick])) (Stdout "")
       = Stdout (details stick).
Proof.
  destruct (buffer_holds_last_message (fresh [stick]) 2 eq_refl)
    as (w' & Hrun & Hover & _ & Hmsg & _).
  - vm_compute. reflexivity.
  - vm_compute. lia.
  - exists w'. split; [exact Hrun|]. split; [exact Hover|].
    split; [|reflexivity].
    rewrite Hmsg. reflexivity.
Defined.




























